(** * charcoal styled: the [theme(o => [...])] resolver

    A shallow embedding of [packages/styled/src/index.ts] and
    [packages/styled/src/builders/borderRadius.ts].

    - JS objects used as dictionaries ([Context], the theme's token tables)
      are [gmap string _]; object spread [{...a, ...b}] is the union that
      prefers [b].
    - A CSS object keeps its keys in insertion order, so it is an
      association list.
    - [throw] is an explicit result type [Exc]; [Array.prototype.reduce] and
      [Array.prototype.map] run their callback left to right and stop at the
      first exception. *)

From Stdlib Require Import QArith.
From stdpp Require Import base option list strings gmap pretty.

Set Warnings "-register-all".
Local Open Scope string_scope.

(** ** Values *)

(** A CSS fragment: property name (or nested selector) to value. *)
Inductive CSSValue : Type :=
  | CssString (s : string)
  | CssNumber (n : Z)
  | CssNested (o : list (string * CSSValue)).

Abbreviation CSSObject := (list (string * CSSValue)).

(** The shared coordination mapping: named flags to booleans. *)
Abbreviation Context := (gmap string bool).

(** The two values the resolver can throw: the dedicated missing-provider
    error, and the engine's own [TypeError] for a property read on a value
    that is not an object. *)
Inductive JsError : Type :=
  | noThemeProvider
  | TypeError.

Inductive Exc (A : Type) : Type :=
  | Throw (e : JsError)
  | Ok (a : A).
Arguments Throw {A} e.
Arguments Ok {A} a.

Global Instance exc_ret : MRet Exc := λ A a, Ok a.

Global Instance exc_bind : MBind Exc := λ A B k m,
  match m with
  | Throw e => Throw e
  | Ok a => k a
  end.

(** [arr.reduce(f, init)] with a callback that may throw. *)
Fixpoint reduce {A B} (f : B → A → Exc B) (init : B) (arr : list A) : Exc B :=
  match arr with
  | [] => Ok init
  | v :: rest => acc ← f init v; reduce f acc rest
  end.

(** [arr.map(f)] with a callback that may throw. *)
Fixpoint map_exc {A B} (f : A → Exc B) (arr : list A) : Exc (list B) :=
  match arr with
  | [] => Ok []
  | v :: rest => r ← f v; rs ← map_exc f rest; Ok (r :: rs)
  end.

(** ** [./util] *)

(** Values that can be [null] or [undefined]. *)
Class Nullable (A : Type) := isNullish : A → bool.

Global Instance option_nullable {A} : Nullable (option A) :=
  λ v, match v with None => true | Some _ => false end.

(** Modelled from the spec: [./util] is not among the sources. [isPresent]
    is the presence test of section 4.4 and 4.6: a value is present unless
    it is [null] or [undefined]. *)
Definition isPresent {A} `{Nullable A} (value : A) : bool :=
  negb (isNullish value).

(** ** [./builders/internal] *)

(** Modelled from the spec: [./builders/internal] is not among the sources.
    Section 4.3: a descriptor carries a projection from the resolved context
    to a CSS fragment and a context contribution; the resolver reads them as
    [operation] and [context]. *)
Record Internal : Type := mkInternal {
  operation : Context → CSSObject;
  context : Context;
}.

(** Modelled from the spec: the constructor used by [index.ts]; the second
    argument is optional and defaults to the empty mapping. *)
Definition internal (operation : Context → CSSObject)
    (context : option Context) : Internal :=
  mkInternal operation (default ∅ context).

(** Modelled from the spec: the constructor used by [borderRadius.ts]; no
    context supplied means the empty contribution (section 4.3). *)
Definition createInternal (toCSS : Context → CSSObject) : Internal :=
  mkInternal toCSS ∅.

(** What a spec callback may put in its list: [null], [undefined], [false]
    or a descriptor. *)
Inductive Item : Type :=
  | JsNull
  | JsUndefined
  | JsFalse
  | Desc (d : Internal).

Global Instance item_nullable : Nullable Item :=
  λ v, match v with JsNull | JsUndefined => true | _ => false end.

(** [value !== false] *)
Definition not_false (value : Item) : bool :=
  match value with JsFalse => false | _ => true end.

(** Modelled from the spec: reads the hidden slot of a descriptor. On a
    value that is not a descriptor the property read that follows throws. *)
Definition __DO_NOT_USE_GET_INTERNAL__ (v : Item) : Exc Internal :=
  match v with
  | Desc d => Ok d
  | _ => Throw TypeError
  end.

(** What a spec callback returns: one item, or an array of them. *)
Inductive SpecReturn : Type :=
  | Bare (v : Item)
  | Arr (vs : list Item).

(** ** [@charcoal-ui/utils] *)

(** A number, or [undefined], inside a template literal. *)
Definition template_number (value : option Z) : string :=
  from_option pretty "undefined" value.

(** Modelled from the spec: [@charcoal-ui/utils] is not among the sources.
    Section 4.1: the single shared unit-formatting rule turns a numeric
    token into a pixel string. *)
Definition px (value : option Z) : string :=
  template_number value +:+ "px".

(** ** Theme *)

(** The token tables read by the accessors embedded here. *)
Record Theme : Type := mkTheme {
  theme_borderRadius : gmap string Z;
  theme_color : gmap string string;
}.

(** ** [builders/borderRadius.ts] *)

Definition createBorderRadiusCss (theme : Theme) (size : string) : Internal :=
  createInternal (λ _,
    [("borderRadius", CssString (px (theme_borderRadius theme !! size)))]).

(** ** [index.ts] *)

(** A value of any type inside a template literal; [null] prints as its
    name. *)
Definition template_string (v : option string) : string :=
  from_option id "null" v.

(** [const nonBlank = (value) => isPresent(value) && value !== false] *)
Definition nonBlank (value : Item) : bool :=
  isPresent value && not_false value.

(** [Array.isArray(raw) ? raw : [raw]] *)
Definition toArray (raw : SpecReturn) : list Item :=
  match raw with
  | Arr vs => vs
  | Bare v => [v]
  end.

(** [cond && descriptor], the conditional entry of the [StyledInput] spec in
    [TextField] ([p.invalid && o.outline.assertive]): the descriptor when
    the condition holds, [false] otherwise. *)
Definition js_and (cond : bool) (d : Internal) : Item :=
  if cond then Desc d else JsFalse.

(** A token value with its state modifier, as [o.bg.surface3.hover]. *)
Record Modified : Type := mkModified {
  hover : Internal;
}.

(** The [o] handed to the spec callback: the accessors used below. *)
Record O : Type := mkO {
  borderRadius : string → Internal;
  bg : string → Modified;
}.

(** ** [components/TextField/index.tsx]

    The change handler of the text field. The component keeps the counter in
    React state and hands accepted values to the [onChange] prop; here the
    state is passed explicitly and the calls of [onChange] are logged. *)

(** The props read by the handler. [props_onChange] tells whether a handler
    was supplied. *)
Record TextFieldProps : Type := mkTextFieldProps {
  props_value : option string;
  props_maxLength : option Z;
  props_onChange : bool;
}.

Record TextFieldState : Type := mkTextFieldState {
  count : nat;
  onChange_calls : list string;
}.

Section TextField.

(** Imported from [../../_lib], which is not among the sources. *)
Variable countCodePointsInString : string → nat.

(** [useState(countCodePointsInString(props.value ?? ''))] *)
Definition initialCount (props : TextFieldProps) : nat :=
  countCodePointsInString (default "" (props_value props)).

(** [const nonControlled = props.value === undefined] *)
Definition nonControlled (props : TextFieldProps) : bool :=
  bool_decide (props_value props = None).

(** [maxLength !== undefined && count > maxLength] *)
Definition overLimit (props : TextFieldProps) (count : nat) : bool :=
  match props_maxLength props with
  | Some maxLength => bool_decide (maxLength < Z.of_nat count)%Z
  | None => false
  end.

Definition handleChange (props : TextFieldProps) (value : string)
    (st : TextFieldState) : TextFieldState :=
  let count' := countCodePointsInString value in
  if overLimit props count' then st
  else
    let st := if nonControlled props
              then mkTextFieldState count' (onChange_calls st)
              else st in
    if props_onChange props
    then mkTextFieldState (count st) (onChange_calls st ++ [value])
    else st.

(** The handler run on a sequence of inputs, oldest first. *)
Definition handleChanges (props : TextFieldProps) (values : list string)
    (st : TextFieldState) : TextFieldState :=
  foldl (λ st value, handleChange props value st) st values.

End TextField.

(** ** Sample values

    A theme with one radius token and one colour, and stand-ins for the
    imported duration formatter and colour formula, used to run the
    definitions on concrete inputs. *)

Definition sample_theme : Theme :=
  mkTheme {[ "x" := 8%Z ]} {[ "surface3" := "#f5f5f5" ]}.

Definition sample_duration : Q := 1 # 5.

Definition sample_dur (value : Q) : string := "0.2s".

Definition sample_bgHoverCss (theme : Theme) (color : string) : CSSObject :=
  [("background-color",
    CssString (default "" (theme_color theme !! color)));
   ("&:hover",
    CssNested
      [("background-color",
        CssString (default "" (theme_color theme !! color)))])].

Definition sample_colorOn : Internal :=
  internal (λ _, [("color", CssString "red")])
    (Some {[ "colorTransition" := true ]}).

Definition sample_colorOff : Internal :=
  internal (λ _, [("color", CssString "blue")])
    (Some {[ "colorTransition" := false ]}).

(** A theme with two radius keys holding the same token. *)
Definition sample_theme_radii : Theme :=
  mkTheme {[ "x" := 8%Z; "y" := 8%Z ]} ∅.

(** A stand-in for the code-point counter, exact on ASCII strings. *)
Definition sample_countCodePoints (s : string) : nat := String.length s.

Definition sample_props_free : TextFieldProps :=
  mkTextFieldProps None (Some 3%Z) true.

Definition sample_props_controlled : TextFieldProps :=
  mkTextFieldProps (Some "ab") (Some 3%Z) true.

Definition sample_props_negative : TextFieldProps :=
  mkTextFieldProps None (Some (-1)%Z) true.

Definition sample_inputs : list string := ["ab"; "abcd"; "abc"; "abcde"].

Definition sample_state : TextFieldState := mkTextFieldState 0 [].

Section Index.

(** Imported from [./builders/internal] and [@charcoal-ui/utils], which are
    not among the sources: the duration constant and its formatter. *)
Variable TRANSITION_DURATION : Q.
Variable dur : Q → string.

(** The CSS formula of a hovered background colour; section 1 of the spec
    leaves the colour formulas out of scope. *)
Variable bgHoverCss : Theme → string → CSSObject.

(** Modelled from the spec: [./builders/colors] is not among the sources.
    Section 4.5: the descriptor written [o.bg.<color>.hover] requests a
    transition on [background-color] through its context contribution. *)
Definition colors_bg (theme : Theme) (color : string) : Modified :=
  {| hover := internal (λ _, bgHoverCss theme color)
                (Some {[ "backgroundColorTransition" := true ]}) |}.

(** [builder(theme)], with [isPhantom] left at its default [false]; the
    phantom call only feeds type inference. Of the object assembled by
    [objectAssign], the two accessors above are kept; the other categories
    add keys of their own and leave these two untouched. *)
Definition builder (theme : Theme) : O :=
  let borderRadiusCss := createBorderRadiusCss theme in
  {| borderRadius := λ radius, borderRadiusCss radius;
     bg := colors_bg theme |}.

Definition commonSpec (_theme : Theme) : Internal :=
  let duration := dur TRANSITION_DURATION in
  let transition (property : list (option string)) : CSSObject :=
    [("transition",
      CssString (String.concat ", "
        (map (λ v, duration +:+ " " +:+ template_string v) property)))] in
  internal
    (λ ctx,
      let colorTransition := default false (ctx !! "colorTransition") in
      let backgroundColorTransition :=
        default false (ctx !! "backgroundColorTransition") in
      let boxShadowTransition :=
        default false (ctx !! "boxShadowTransition") in
      transition
        (List.filter isPresent
          [ if colorTransition then Some "color" else None;
            if backgroundColorTransition then Some "background-color"
            else None;
            if boxShadowTransition then Some "box-shadow" else None ]))
    None.

(** [createTheme()(spec)({ theme })]. Past the presence check the theme is
    an object; [builder] reading the token tables of a value that is not
    one would be a [TypeError]. *)
Definition createTheme (spec : O → SpecReturn) (theme : option Theme)
    : Exc (list CSSObject) :=
  if negb (isPresent theme) then Throw noThemeProvider
  else
    theme ← from_option Ok (Throw TypeError) theme;
    let rawSpecDescriptor := spec (builder theme) in
    let specDescriptor :=
      List.filter nonBlank
        (toArray rawSpecDescriptor ++ [Desc (commonSpec theme)]) in
    context ← reduce
      (λ acc v, i ← __DO_NOT_USE_GET_INTERNAL__ v; Ok (context i ∪ acc))
      ∅ specDescriptor;
    map_exc
      (λ v, i ← __DO_NOT_USE_GET_INTERNAL__ v; Ok (operation i context))
      specDescriptor.

(** ** The resolver in the spec's words

    The definitions below restate sections 3, 4.4 and 4.5 of the
    specification; the theorems relate them to [createTheme]. *)

(** Dropping blanks: the descriptors of a list, in order. *)
Definition descriptors (vs : list Item) : list Internal :=
  omap (λ v, match v with Desc d => Some d | _ => None end) vs.

(** The normalized sequence: the user's descriptors, then the implicit
    transition descriptor. *)
Definition normalized (theme : Theme) (raw : SpecReturn) : list Internal :=
  descriptors (toArray raw) ++ [commonSpec theme].

(** Left-to-right shallow merge, later overwriting earlier. *)
Definition mergeContext (ds : list Internal) : Context :=
  foldl (λ acc d, context d ∪ acc) ∅ ds.

(** The value given to key [k] by the last descriptor that mentions it. *)
Fixpoint lastWrite (k : string) (ds : list Internal) : option bool :=
  match ds with
  | [] => None
  | d :: rest =>
      match lastWrite k rest with
      | Some v => Some v
      | None => context d !! k
      end
  end.

(** CSS property and the context flag that requests its transition. *)
Definition transitionFlags : list (string * string) :=
  [ ("color", "colorTransition");
    ("background-color", "backgroundColorTransition");
    ("box-shadow", "boxShadowTransition") ].

(** The properties whose flag is [true] in the context. *)
Definition requested (ctx : Context) : list string :=
  (filter (λ pk, ctx !! pk.2 = Some true) transitionFlags).*1.

(** A fragment with the single property [transition]. *)
Definition transitionRule (props : list string) : CSSObject :=
  [("transition",
    CssString (String.concat ", "
      (map (λ p, dur TRANSITION_DURATION +:+ " " +:+ p) props)))].

(** A blank is [null], [undefined] or [false]. *)
Definition isBlank (v : Item) : bool :=
  match v with Desc _ => false | _ => true end.

(** Two items with the same structure: the same blank, or descriptors
    with the same contribution and the same fragment at every context. *)
Definition item_equiv (a b : Item) : Prop :=
  match a, b with
  | JsNull, JsNull | JsUndefined, JsUndefined | JsFalse, JsFalse => True
  | Desc d, Desc d' =>
      context d = context d' ∧ ∀ ctx, operation d ctx = operation d' ctx
  | _, _ => False
  end.

Definition return_equiv (r r' : SpecReturn) : Prop :=
  match r, r' with
  | Bare a, Bare b => item_equiv a b
  | Arr vs, Arr vs' => Forall2 item_equiv vs vs'
  | _, _ => False
  end.

(** ** The two passes over a list of descriptors *)

Lemma filter_nonBlank (vs : list Item) :
  List.filter nonBlank vs = map Desc (descriptors vs).
Proof.
  induction vs as [|v vs IH]; [done|].
  destruct v; cbn; by rewrite ?IH.
Qed.

Lemma filter_nonBlank_snoc (vs : list Item) (d : Internal) :
  List.filter nonBlank (vs ++ [Desc d]) = map Desc (descriptors vs ++ [d]).
Proof.
  rewrite List.filter_app, filter_nonBlank, map_app. done.
Qed.

Lemma reduce_descriptors (ds : list Internal) (acc : Context) :
  reduce (λ acc v, i ← __DO_NOT_USE_GET_INTERNAL__ v; Ok (context i ∪ acc))
    acc (map Desc ds)
  = Ok (foldl (λ acc d, context d ∪ acc) acc ds).
Proof.
  revert acc. induction ds as [|d ds IH]; intros acc; [done|].
  cbn. apply IH.
Qed.

Lemma map_descriptors (ctx : Context) (ds : list Internal) :
  map_exc (λ v, i ← __DO_NOT_USE_GET_INTERNAL__ v; Ok (operation i ctx))
    (map Desc ds)
  = Ok (map (λ d, operation d ctx) ds).
Proof.
  induction ds as [|d ds IH]; [done|].
  cbn. rewrite IH. done.
Qed.

Lemma createTheme_resolved (spec : O → SpecReturn) (theme : Theme) :
  createTheme spec (Some theme)
  = Ok (map (λ d, operation d (mergeContext (normalized theme (spec (builder theme)))))
          (normalized theme (spec (builder theme)))).
Proof.
  unfold createTheme, normalized, mergeContext. cbn.
  rewrite filter_nonBlank_snoc, reduce_descriptors. cbn.
  apply map_descriptors.
Qed.

Lemma mergeContext_snoc (ds : list Internal) (d : Internal) :
  mergeContext (ds ++ [d]) = context d ∪ mergeContext ds.
Proof. unfold mergeContext. by rewrite foldl_app. Qed.

Lemma foldl_lastWrite (k : string) (ds : list Internal) (acc : Context) :
  foldl (λ acc d, context d ∪ acc) acc ds !! k
  = match lastWrite k ds with Some v => Some v | None => acc !! k end.
Proof.
  revert acc. induction ds as [|d ds IH]; intros acc; [done|].
  cbn. rewrite IH. destruct (lastWrite k ds); [done|].
  rewrite lookup_union. by destruct (context d !! k), (acc !! k).
Qed.

Lemma mergeContext_lastWrite (k : string) (ds : list Internal) :
  mergeContext ds !! k = lastWrite k ds.
Proof.
  unfold mergeContext. rewrite foldl_lastWrite.
  by destruct (lastWrite k ds).
Qed.

Lemma mergeContext_normalized (theme : Theme) (raw : SpecReturn) :
  mergeContext (normalized theme raw)
  = mergeContext (descriptors (toArray raw)).
Proof.
  unfold normalized. rewrite mergeContext_snoc. cbn.
  apply (left_id_L ∅ (∪)).
Qed.

Lemma commonSpec_operation (theme : Theme) (ctx : Context) :
  operation (commonSpec theme) ctx = transitionRule (requested ctx).
Proof.
  unfold requested, transitionRule. cbn.
  destruct (ctx !! "colorTransition") as [[]|];
    destruct (ctx !! "backgroundColorTransition") as [[]|];
    destruct (ctx !! "boxShadowTransition") as [[]|]; reflexivity.
Qed.

Lemma elem_of_requested (ctx : Context) (p : string) :
  p ∈ requested ctx ↔ ∃ k, (p, k) ∈ transitionFlags ∧ ctx !! k = Some true.
Proof.
  unfold requested. rewrite list_elem_of_fmap. split.
  - intros [[p' k] [-> [Hk Hin]%list_elem_of_filter]]. by exists k.
  - intros [k [Hin Hk]]. exists (p, k). split; [done|].
    by apply list_elem_of_filter.
Qed.

Lemma requested_sublist (ctx : Context) :
  requested ctx `sublist_of` ["color"; "background-color"; "box-shadow"].
Proof.
  unfold requested.
  change ["color"; "background-color"; "box-shadow"] with (transitionFlags.*1).
  apply fmap_sublist, sublist_filter.
Qed.

(** Descriptors with the same contribution and the same fragments. *)
Definition desc_equiv (d d' : Internal) : Prop :=
  context d = context d' ∧ ∀ ctx, operation d ctx = operation d' ctx.

Lemma descriptors_equiv (vs vs' : list Item) :
  Forall2 item_equiv vs vs' →
  Forall2 desc_equiv (descriptors vs) (descriptors vs').
Proof.
  induction 1 as [|a b vs vs' Hab _ IH]; [constructor|].
  destruct a, b; cbn in *; try done. by constructor.
Qed.

Lemma mergeContext_equiv (ds ds' : list Internal) :
  Forall2 desc_equiv ds ds' → mergeContext ds = mergeContext ds'.
Proof.
  unfold mergeContext. generalize (∅ : Context).
  intros acc H. revert acc.
  induction H as [|d d' ds ds' [Hc _] _ IH]; intros acc; [done|].
  cbn. rewrite Hc. apply IH.
Qed.

Lemma render_equiv (ctx : Context) (ds ds' : list Internal) :
  Forall2 desc_equiv ds ds' →
  map (λ d, operation d ctx) ds = map (λ d, operation d ctx) ds'.
Proof.
  induction 1 as [|d d' ds ds' [_ Ho] _ IH]; [done|].
  cbn. by rewrite Ho, IH.
Qed.

Lemma toArray_equiv (r r' : SpecReturn) :
  return_equiv r r' → Forall2 item_equiv (toArray r) (toArray r').
Proof.
  destruct r, r'; cbn; try done. intros H. by constructor.
Qed.

Lemma descriptors_blank (vs : list Item) :
  forallb isBlank vs = true → descriptors vs = [].
Proof.
  induction vs as [|v vs IH]; [done|].
  destruct v; cbn; try done; exact IH.
Qed.

(** ** The claims *)

(** C1. The context handed to every descriptor is the left-to-right
    shallow merge of the contributions of the normalized sequence: each
    key holds what the last descriptor mentioning it wrote. In particular,
    for a descriptor contributing [colorTransition: true] followed by one
    contributing [colorTransition: false], the implicit descriptor's
    fragment is the transition rule over the properties requested by the
    merged context, which holds [colorTransition = false]: [color] is not
    among them, and only [background-color] and [box-shadow] can be. With
    exactly these two contributions the fragment is [{ transition: "" }];
    in the opposite order [color] is listed. *)
Theorem context_last_write_wins (theme : Theme) :
  (∀ spec : O → SpecReturn,
     ∃ ctx,
       createTheme spec (Some theme)
       = Ok (map (λ d, operation d ctx)
               (normalized theme (spec (builder theme))))
       ∧ ctx = foldl (λ acc d, context d ∪ acc) ∅
                 (normalized theme (spec (builder theme)))
       ∧ ∀ k, ctx !! k
              = lastWrite k (normalized theme (spec (builder theme))))
  ∧ (∀ dA dB : Internal,
       context dA !! "colorTransition" = Some true →
       context dB !! "colorTransition" = Some false →
       let ctx := context dB ∪ context dA in
       createTheme (λ _, Arr [Desc dA; Desc dB]) (Some theme)
       = Ok [operation dA ctx; operation dB ctx;
             transitionRule (requested ctx)]
       ∧ ctx !! "colorTransition" = Some false
       ∧ ("color" ∉ requested ctx)
       ∧ (requested ctx `sublist_of` ["background-color"; "box-shadow"]))
  ∧ (∀ opA opB : Context → CSSObject,
       let ctx : Context := {[ "colorTransition" := false ]} in
       createTheme
         (λ _, Arr [Desc (internal opA (Some {[ "colorTransition" := true ]}));
                    Desc (internal opB
                            (Some {[ "colorTransition" := false ]}))])
         (Some theme)
       = Ok [opA ctx; opB ctx; [("transition", CssString "")]])
  ∧ (∀ opA opB : Context → CSSObject,
       let ctx : Context := {[ "colorTransition" := true ]} in
       createTheme
         (λ _, Arr [Desc (internal opA
                            (Some {[ "colorTransition" := false ]}));
                    Desc (internal opB (Some {[ "colorTransition" := true ]}))])
         (Some theme)
       = Ok [opA ctx; opB ctx;
             [("transition",
               CssString (dur TRANSITION_DURATION +:+ " color"))]]).
Proof.
  split; [|split; [|split]].
  - intros spec. eexists. split; [apply createTheme_resolved|].
    split; [done|]. intros k. apply mergeContext_lastWrite.
  - intros dA dB HA HB ctx.
    assert (mergeContext [dA; dB; commonSpec theme] = ctx) as Hctx.
    { unfold mergeContext, ctx. cbn.
      by rewrite (left_id_L ∅ (∪)), (right_id_L ∅ (∪)). }
    assert (ctx !! "colorTransition" = Some false) as Hc.
    { unfold ctx. by rewrite lookup_union, HB, HA. }
    split; [|split; [done|split]].
    + rewrite createTheme_resolved. cbn [normalized toArray descriptors omap
        list_omap app map]. by rewrite Hctx, commonSpec_operation.
    + intros [k [Hin Hk]]%elem_of_requested.
      unfold transitionFlags in Hin.
      repeat (apply elem_of_cons in Hin as [Hin|Hin]);
        try (by apply elem_of_nil in Hin); simplify_eq.
    + unfold requested, transitionFlags.
      rewrite filter_cons_False by (cbn; congruence).
      apply (fmap_sublist fst _
               [("background-color", "backgroundColorTransition");
                ("box-shadow", "boxShadowTransition")]),
        sublist_filter.
  - intros opA opB ctx. rewrite createTheme_resolved.
    cbn [normalized toArray descriptors omap list_omap app map].
    replace (mergeContext _) with ctx; [reflexivity|].
    apply map_eq. intros k. rewrite mergeContext_lastWrite. cbn.
    rewrite lookup_empty. unfold ctx.
    destruct (decide (k = "colorTransition")) as [->|Hk].
    + by rewrite !lookup_singleton_eq.
    + by rewrite !lookup_singleton_ne.
  - intros opA opB ctx. rewrite createTheme_resolved.
    cbn [normalized toArray descriptors omap list_omap app map].
    replace (mergeContext _) with ctx; [reflexivity|].
    apply map_eq. intros k. rewrite mergeContext_lastWrite. cbn.
    rewrite lookup_empty. unfold ctx.
    destruct (decide (k = "colorTransition")) as [->|Hk].
    + by rewrite !lookup_singleton_eq.
    + by rewrite !lookup_singleton_ne.
Qed.

(** C2. The normalized sequence ends with exactly one implicit transition
    descriptor: the output is the user descriptors' fragments followed by
    one fragment holding the single property [transition], whose list is
    made of exactly those of [color], [background-color], [box-shadow]
    (in this order) whose flag is [true] in the final context; a flag no
    descriptor wrote counts as [false]. *)
Theorem implicit_transition_descriptor (theme : Theme)
    (spec : O → SpecReturn) :
  ∃ ctx,
    List.filter nonBlank
      (toArray (spec (builder theme)) ++ [Desc (commonSpec theme)])
    = (map Desc (descriptors (toArray (spec (builder theme))))
       ++ [Desc (commonSpec theme)])%list
    ∧ createTheme spec (Some theme)
      = Ok (map (λ d, operation d ctx)
              (descriptors (toArray (spec (builder theme))))
            ++ [transitionRule (requested ctx)])%list
    ∧ (∀ k, ctx !! k
            = lastWrite k (descriptors (toArray (spec (builder theme)))))
    ∧ (∀ p, p ∈ requested ctx
            ↔ ∃ k, (p, k) ∈ transitionFlags ∧ ctx !! k = Some true)
    ∧ requested ctx `sublist_of` ["color"; "background-color"; "box-shadow"].
Proof.
  exists (mergeContext (descriptors (toArray (spec (builder theme))))).
  split; [|split; [|split; [|split]]].
  - rewrite filter_nonBlank_snoc. apply map_app.
  - rewrite createTheme_resolved, mergeContext_normalized.
    unfold normalized. rewrite map_app. cbn [map].
    by rewrite commonSpec_operation.
  - intros k. apply mergeContext_lastWrite.
  - intros p. apply elem_of_requested.
  - apply requested_sublist.
Qed.

(** C4. For a spec returning a list, the output is the fragments of the
    non-blank entries, in their order, followed by the implicit
    descriptor's fragment; for [[null, A, false, B, undefined]] these are
    the fragments of [A], [B] and the implicit descriptor. *)
Theorem blank_filtering (theme : Theme) :
  (∀ f : O → list Item,
     let ds := descriptors (f (builder theme)) in
     let ctx := foldl (λ acc d, context d ∪ acc) ∅ ds in
     createTheme (λ o, Arr (f o)) (Some theme)
     = Ok (map (λ d, operation d ctx) ds
           ++ [operation (commonSpec theme) ctx])%list)
  ∧ (∀ dA dB : Internal,
       let ctx := context dB ∪ context dA in
       createTheme
         (λ _, Arr [JsNull; Desc dA; JsFalse; Desc dB; JsUndefined])
         (Some theme)
       = Ok [operation dA ctx; operation dB ctx;
             operation (commonSpec theme) ctx]).
Proof.
  split.
  - intros f ds ctx. rewrite createTheme_resolved, mergeContext_normalized.
    unfold normalized. rewrite map_app. reflexivity.
  - intros dA dB ctx. rewrite createTheme_resolved, mergeContext_normalized.
    replace (mergeContext
               (descriptors
                  (toArray (Arr [JsNull; Desc dA; JsFalse; Desc dB;
                                 JsUndefined]))))
      with ctx; [reflexivity|].
    unfold ctx, mergeContext. cbn. by rewrite (right_id_L ∅ (∪)).
Qed.

(** C5. With a theme present, the output is the normalized sequence (the
    array the code filters, which holds descriptors only) mapped in order
    through the render operation at the final context: same length, and
    the i-th fragment is the i-th descriptor's. *)
Theorem fragments_in_descriptor_order (theme : Theme)
    (spec : O → SpecReturn) :
  ∃ ds ctx out,
    List.filter nonBlank
      (toArray (spec (builder theme)) ++ [Desc (commonSpec theme)])
    = map Desc ds
    ∧ ctx = foldl (λ acc d, context d ∪ acc) ∅ ds
    ∧ createTheme spec (Some theme) = Ok out
    ∧ out = map (λ d, operation d ctx) ds
    ∧ length out = length ds
    ∧ ∀ i, out !! i = (λ d, operation d ctx) <$> ds !! i.
Proof.
  exists (normalized theme (spec (builder theme))).
  eexists. eexists.
  split; [apply filter_nonBlank_snoc|].
  split; [reflexivity|].
  split; [apply createTheme_resolved|].
  split; [reflexivity|].
  split; [apply length_map|].
  intros i. apply list_lookup_fmap.
Qed.

(** C6. With the theme absent the invocation throws [noThemeProvider],
    whatever the spec is, and returns no fragment; with a theme present it
    returns a fragment list and throws nothing. *)
Theorem missing_theme_provider (spec : O → SpecReturn) :
  createTheme spec None = Throw noThemeProvider
  ∧ ∀ theme, ∃ out, createTheme spec (Some theme) = Ok out.
Proof.
  split; [reflexivity|].
  intros theme. eexists. apply createTheme_resolved.
Qed.

(** C7. A spec returning a bare value and a spec returning that value in a
    one-element array give the same output. *)
Theorem singleton_normalization (f : O → Item) (theme : option Theme) :
  createTheme (λ o, Bare (f o)) theme = createTheme (λ o, Arr [f o]) theme.
Proof. destruct theme; reflexivity. Qed.

(** The resolver uses a descriptor only through its contribution and its
    fragments: spec results with the same blanks and descriptors that agree
    on both give equal outputs. *)
Lemma createTheme_equiv (spec spec' : O → SpecReturn)
    (theme : option Theme) :
  (∀ t, theme = Some t →
        return_equiv (spec (builder t)) (spec' (builder t))) →
  createTheme spec theme = createTheme spec' theme.
Proof.
  intros H. destruct theme as [t|]; [|reflexivity].
  specialize (H t eq_refl).
  apply toArray_equiv, descriptors_equiv in H.
  assert (Forall2 desc_equiv (normalized t (spec (builder t)))
            (normalized t (spec' (builder t)))) as Hn.
  { apply Forall2_app; [done|]. by repeat constructor. }
  rewrite !createTheme_resolved.
  rewrite (mergeContext_equiv _ _ Hn). f_equal. by apply render_equiv.
Qed.

(** C9. When the theme has [borderRadius.x = 8], [o.borderRadius('x')]
    renders [{ borderRadius: "8px" }] at every context, and so does its
    fragment in the output. *)
Theorem borderRadius_px (theme : Theme) :
  theme_borderRadius theme !! "x" = Some 8%Z →
  (∀ ctx, operation (borderRadius (builder theme) "x") ctx
          = [("borderRadius", CssString "8px")])
  ∧ createTheme (λ o, Bare (Desc (borderRadius o "x"))) (Some theme)
    = Ok [[("borderRadius", CssString "8px")]; transitionRule []].
Proof.
  intros H.
  assert (∀ ctx, operation (borderRadius (builder theme) "x") ctx
                 = [("borderRadius", CssString "8px")]) as Hop.
  { intros ctx. cbn. rewrite H. reflexivity. }
  split; [done|].
  rewrite createTheme_resolved.
  cbn [normalized toArray descriptors omap list_omap app map].
  rewrite Hop. reflexivity.
Qed.

(** C10. With a theme present and a spec returning only blanks, the output
    is the one-element list [[{ transition: "" }]]. *)
Theorem only_blanks (theme : Theme) (spec : O → SpecReturn) :
  forallb isBlank (toArray (spec (builder theme))) = true →
  createTheme spec (Some theme) = Ok [[("transition", CssString "")]].
Proof.
  intros H. rewrite createTheme_resolved. unfold normalized.
  rewrite (descriptors_blank _ H). reflexivity.
Qed.

(** ** Further properties of the resolver *)

Lemma createTheme_nonBlank_ext (spec spec' : O → SpecReturn)
    (theme : option Theme) :
  (∀ o, List.filter nonBlank (toArray (spec o))
        = List.filter nonBlank (toArray (spec' o))) →
  createTheme spec theme = createTheme spec' theme.
Proof.
  intros H. destruct theme as [t|]; [|reflexivity].
  unfold createTheme. cbn. by rewrite !List.filter_app, H.
Qed.

Lemma createTheme_fragments (spec : O → SpecReturn) (theme : Theme) :
  createTheme spec (Some theme)
  = Ok (map (λ d, operation d
                    (mergeContext (descriptors (toArray (spec (builder theme))))))
          (descriptors (toArray (spec (builder theme))))
        ++ [transitionRule
              (requested
                 (mergeContext
                    (descriptors (toArray (spec (builder theme))))))])%list.
Proof.
  rewrite createTheme_resolved, mergeContext_normalized.
  unfold normalized. rewrite map_app. cbn [map].
  by rewrite commonSpec_operation.
Qed.

Lemma elem_of_descriptors (d : Internal) (vs : list Item) :
  d ∈ descriptors vs ↔ Desc d ∈ vs.
Proof.
  unfold descriptors. rewrite list_elem_of_omap. split.
  - intros [v [Hin Hv]]. destruct v; simplify_eq. done.
  - intros Hin. by exists (Desc d).
Qed.

Lemma descriptors_app (vs vs' : list Item) :
  descriptors (vs ++ vs') = (descriptors vs ++ descriptors vs')%list.
Proof. apply omap_app. Qed.

Lemma length_descriptors (vs : list Item) :
  length (descriptors vs) = length (List.filter nonBlank vs).
Proof. by rewrite filter_nonBlank, length_map. Qed.

Lemma lastWrite_Some (k : string) (v : bool) (ds : list Internal) :
  lastWrite k ds = Some v → ∃ d, d ∈ ds ∧ context d !! k = Some v.
Proof.
  induction ds as [|d ds IH]; [done|]. cbn.
  destruct (lastWrite k ds) as [w|].
  - intros [= ->]. destruct IH as [d' [Hin Hd']]; [done|].
    exists d'. split; [by right | done].
  - intros Hd. exists d. split; [by left | done].
Qed.

Lemma lastWrite_None (k : string) (ds : list Internal) :
  lastWrite k ds = None ↔ ∀ d, d ∈ ds → context d !! k = None.
Proof.
  induction ds as [|d ds IH]; cbn.
  - split; [|done]. intros _ d Hin. by apply elem_of_nil in Hin.
  - destruct (lastWrite k ds) as [w|] eqn:Hw.
    + split; [done|]. intros H.
      destruct (lastWrite_Some _ _ _ Hw) as [d' [Hin Hd']].
      rewrite (H d') in Hd'; [done | by right].
    + split.
      * intros Hd d' [->|Hin]%elem_of_cons; [done|]. by apply IH.
      * intros H. apply H. by left.
Qed.

Lemma lastWrite_app (k : string) (ds ds' : list Internal) :
  lastWrite k (ds ++ ds')
  = match lastWrite k ds' with Some v => Some v | None => lastWrite k ds end.
Proof.
  induction ds as [|d ds IH]; cbn.
  - by destruct (lastWrite k ds').
  - rewrite IH. by destruct (lastWrite k ds').
Qed.

Lemma mergeContext_skip (d : Internal) (ds ds' : list Internal) :
  context d = ∅ → mergeContext (ds ++ d :: ds') = mergeContext (ds ++ ds').
Proof.
  intros Hd. apply map_eq. intros k.
  rewrite !mergeContext_lastWrite, !lastWrite_app. cbn.
  rewrite Hd, lookup_empty. by destruct (lastWrite k ds').
Qed.

Lemma transitionRule_nil (props : list string) :
  transitionRule props = transitionRule [] ↔ props = [].
Proof.
  split; [|by intros ->].
  destruct props as [|p props]; [done|]. unfold transitionRule. cbn.
  intros [= H]. exfalso. revert H.
  destruct props; cbn; destruct (dur TRANSITION_DURATION); cbn; discriminate.
Qed.

Lemma string_length_app (s t : string) :
  String.length (s +:+ t) = String.length s + String.length t.
Proof. induction s as [|a s IH]; simpl; [done | by f_equal]. Qed.

Lemma string_app_inj_r (s1 s2 t : string) :
  s1 +:+ t = s2 +:+ t → s1 = s2.
Proof.
  revert s2. induction s1 as [|a s1 IH]; intros [|b s2] H.
  - done.
  - apply (f_equal String.length) in H.
    rewrite !string_length_app in H. simpl in H. lia.
  - apply (f_equal String.length) in H.
    rewrite !string_length_app in H. simpl in H. lia.
  - simpl in H. injection H as -> H. f_equal. by apply IH.
Qed.

(** C3. For the spec [[o.bg.surface3.hover]] alone, the output is that
    descriptor's fragment followed by the implicit fragment, whose
    [transition] is [<duration> background-color]. The same fragment
    offered without a context contribution, and the empty spec, leave the
    transition empty: what the implicit descriptor lists is what the other
    descriptor contributed. In general, wherever [o.bg.<color>.hover] stands
    in a spec array, as long as no later descriptor writes
    [backgroundColorTransition = false], the final context holds the flag
    and the implicit fragment lists [background-color]. *)
Theorem cross_declaration_coupling (theme : Theme) :
  createTheme (λ o, Arr [Desc (hover (bg o "surface3"))]) (Some theme)
  = Ok [bgHoverCss theme "surface3";
        [("transition",
          CssString (dur TRANSITION_DURATION +:+ " background-color"))]]
  ∧ createTheme
      (λ o, Arr [Desc (internal (operation (hover (bg o "surface3"))) None)])
      (Some theme)
    = Ok [bgHoverCss theme "surface3"; [("transition", CssString "")]]
  ∧ createTheme (λ _, Arr []) (Some theme)
    = Ok [[("transition", CssString "")]]
  ∧ (∀ (color : string) (before after : list Item),
       (∀ d, Desc d ∈ after →
             context d !! "backgroundColorTransition" ≠ Some false) →
       ∃ ctx,
         createTheme
           (λ o, Arr (before ++ Desc (hover (bg o color)) :: after))
           (Some theme)
         = Ok (map (λ d, operation d ctx) (descriptors before)
               ++ bgHoverCss theme color
               :: map (λ d, operation d ctx) (descriptors after)
               ++ [transitionRule (requested ctx)])%list
         ∧ ctx !! "backgroundColorTransition" = Some true
         ∧ "background-color" ∈ requested ctx).
Proof.
  split; [|split; [|split]].
  - rewrite createTheme_resolved. reflexivity.
  - rewrite createTheme_resolved. reflexivity.
  - rewrite createTheme_resolved. reflexivity.
  - intros color before after Hafter.
    set (h := hover (bg (builder theme) color)).
    set (ctx := mergeContext (descriptors (before ++ Desc h :: after))).
    assert (ctx !! "backgroundColorTransition" = Some true) as Hctx.
    { unfold ctx. rewrite mergeContext_lastWrite, descriptors_app.
      rewrite lastWrite_app. cbn [descriptors omap list_omap lastWrite].
      fold (descriptors after).
      destruct (lastWrite _ (descriptors after)) as [[]|] eqn:Hl.
      - done.
      - apply lastWrite_Some in Hl as [d [Hd Hk]].
        apply elem_of_descriptors in Hd. by destruct (Hafter d Hd).
      - reflexivity. }
    exists ctx. split; [|split; [done|]].
    + rewrite createTheme_fragments. cbn [toArray]. fold h. fold ctx.
      rewrite descriptors_app, map_app, <-(assoc_L (@app CSSObject)).
      reflexivity.
    + apply elem_of_requested. exists "backgroundColorTransition".
      split; [unfold transitionFlags; set_solver | done].
Qed.

(** X1. Only the non-blank entries of what a spec returns matter: two specs
    whose results agree once blanks are dropped give the same output, with a
    theme or without. *)
Theorem blanks_are_ignored (spec spec' : O → SpecReturn)
    (theme : option Theme) :
  (∀ o, List.filter nonBlank (toArray (spec o))
        = List.filter nonBlank (toArray (spec' o))) →
  createTheme spec theme = createTheme spec' theme.
Proof. apply createTheme_nonBlank_ext. Qed.

(** X2. A conditional entry [cond && d] in a spec list behaves as the entry
    [d] when the condition holds and as no entry at all when it does not. *)
Theorem conditional_entry (cond : bool) (d : O → Internal)
    (before after : O → list Item) (theme : option Theme) :
  createTheme (λ o, Arr (before o ++ js_and cond (d o) :: after o)) theme
  = if cond
    then createTheme (λ o, Arr (before o ++ Desc (d o) :: after o)) theme
    else createTheme (λ o, Arr (before o ++ after o)) theme.
Proof.
  destruct cond; [reflexivity|].
  apply createTheme_nonBlank_ext. intros o. cbn.
  by rewrite !List.filter_app.
Qed.

(** X3. With a theme present the output has one fragment per non-blank entry
    of the spec result and one more for the implicit descriptor; it is never
    empty. *)
Theorem fragment_count (spec : O → SpecReturn) (theme : Theme) :
  ∃ out,
    createTheme spec (Some theme) = Ok out
    ∧ length out
      = S (length (List.filter nonBlank (toArray (spec (builder theme)))))
    ∧ out ≠ [].
Proof.
  eexists. split; [apply createTheme_fragments|].
  split.
  - rewrite length_app, length_map, length_descriptors. cbn. lia.
  - intros H. by apply app_eq_nil in H as [_ ?].
Qed.

(** X4. When no two descriptors of a list disagree on a key, the context is
    the same for every list holding the same descriptors, in any order and
    with any repetition: both outputs are rendered at one context and end
    with the same transition fragment. *)
Theorem context_order_irrelevant (theme : Theme) (vs vs' : list Item) :
  (∀ d, Desc d ∈ vs ↔ Desc d ∈ vs') →
  (∀ d d' k v v', Desc d ∈ vs → Desc d' ∈ vs →
     context d !! k = Some v → context d' !! k = Some v' → v = v') →
  ∃ ctx,
    createTheme (λ _, Arr vs) (Some theme)
    = Ok (map (λ d, operation d ctx) (descriptors vs)
          ++ [transitionRule (requested ctx)])%list
    ∧ createTheme (λ _, Arr vs') (Some theme)
      = Ok (map (λ d, operation d ctx) (descriptors vs')
            ++ [transitionRule (requested ctx)])%list.
Proof.
  intros Hsame Hagree.
  exists (mergeContext (descriptors vs)).
  split; [apply createTheme_fragments|].
  rewrite createTheme_fragments. cbn [toArray].
  replace (mergeContext (descriptors vs'))
    with (mergeContext (descriptors vs)); [done|].
  apply map_eq. intros k. rewrite !mergeContext_lastWrite.
  destruct (lastWrite k (descriptors vs)) as [v|] eqn:Hv.
  - apply lastWrite_Some in Hv as [d [Hd Hk]].
    apply elem_of_descriptors in Hd.
    destruct (lastWrite k (descriptors vs')) as [v'|] eqn:Hv'.
    + apply lastWrite_Some in Hv' as [d' [Hd' Hk']].
      apply elem_of_descriptors, Hsame in Hd'.
      f_equal. by apply (Hagree d d' k).
    + rewrite lastWrite_None in Hv'.
      rewrite (Hv' d) in Hk; [done|].
      by apply elem_of_descriptors, Hsame.
  - rewrite lastWrite_None in Hv. symmetry. apply lastWrite_None.
    intros d Hd. apply Hv.
    by apply elem_of_descriptors, Hsame, elem_of_descriptors.
Qed.

(** X5. The final context holds nothing but what the descriptors of the spec
    result contributed: every value in it was written by one of them, and
    every key one of them wrote is defined in it. *)
Theorem context_from_descriptors (spec : O → SpecReturn) (theme : Theme) :
  ∃ ctx,
    createTheme spec (Some theme)
    = Ok (map (λ d, operation d ctx)
            (descriptors (toArray (spec (builder theme))))
          ++ [transitionRule (requested ctx)])%list
    ∧ (∀ k v, ctx !! k = Some v →
         ∃ d, Desc d ∈ toArray (spec (builder theme))
              ∧ context d !! k = Some v)
    ∧ (∀ d k, Desc d ∈ toArray (spec (builder theme)) →
         is_Some (context d !! k) → is_Some (ctx !! k)).
Proof.
  exists (mergeContext (descriptors (toArray (spec (builder theme))))).
  split; [apply createTheme_fragments|]. split.
  - intros k v. rewrite mergeContext_lastWrite.
    intros [d [Hd Hk]]%lastWrite_Some. exists d.
    split; [by apply elem_of_descriptors | done].
  - intros d k Hd [v Hk]. rewrite mergeContext_lastWrite.
    destruct (lastWrite k _) as [w|] eqn:Hw; [by eexists|].
    rewrite lastWrite_None in Hw.
    rewrite (Hw d) in Hk; [done | by apply elem_of_descriptors].
Qed.

(** X6. A border-radius descriptor contributes nothing to the context:
    putting [o.borderRadius(size)] anywhere in a list adds its own fragment
    at that place and leaves every other fragment, the transition included,
    as it was. *)
Theorem borderRadius_is_neutral (theme : Theme) (size : string)
    (before after : list Item) :
  ∃ frs1 frs2,
    createTheme (λ _, Arr (before ++ after)) (Some theme)
    = Ok (frs1 ++ frs2)%list
    ∧ createTheme (λ o, Arr (before ++ Desc (borderRadius o size) :: after))
        (Some theme)
      = Ok (frs1
            ++ [("borderRadius",
                 CssString (px (theme_borderRadius theme !! size)))]
            :: frs2)%list
    ∧ length frs1 = length (List.filter nonBlank before)
    ∧ frs2 ≠ [].
Proof.
  set (ctx := mergeContext (descriptors (before ++ after))).
  exists (map (λ d, operation d ctx) (descriptors before)).
  exists (map (λ d, operation d ctx) (descriptors after)
          ++ [transitionRule (requested ctx)])%list.
  split; [|split; [|split]].
  - rewrite createTheme_fragments. cbn [toArray]. fold ctx.
    by rewrite descriptors_app, map_app, <-(assoc_L (@app CSSObject)).
  - rewrite createTheme_fragments. cbn [toArray].
    rewrite descriptors_app. cbn [descriptors omap list_omap].
    fold (descriptors after).
    rewrite mergeContext_skip by reflexivity.
    rewrite <-descriptors_app. fold ctx.
    by rewrite map_app, <-(assoc_L (@app CSSObject)).
  - by rewrite length_map, length_descriptors.
  - intros H. by apply app_eq_nil in H as [_ ?].
Qed.

(** X7. The implicit descriptor reads the context through its three flags
    only, each absent flag counting as [false]: two contexts that agree on
    them render the same fragment, whatever else they hold. *)
Theorem commonSpec_reads_three_flags (theme : Theme) (ctx ctx' : Context) :
  (∀ k, k ∈ transitionFlags.*2 →
        default false (ctx !! k) = default false (ctx' !! k)) →
  operation (commonSpec theme) ctx = operation (commonSpec theme) ctx'.
Proof.
  clear bgHoverCss. intros H. cbn.
  rewrite (H "colorTransition"), (H "backgroundColorTransition"),
    (H "boxShadowTransition"); [done|cbn; set_solver..].
Qed.

(** X8. The implicit fragment is [{ transition: "" }] exactly when none of
    the three flags is [true] in the context. *)
Theorem transition_empty_iff (theme : Theme) (ctx : Context) :
  operation (commonSpec theme) ctx = [("transition", CssString "")]
  ↔ ∀ k, k ∈ transitionFlags.*2 → ctx !! k ≠ Some true.
Proof.
  rewrite commonSpec_operation.
  change [("transition", CssString "")] with (transitionRule []).
  etrans; [apply transitionRule_nil|]. split.
  - intros Hnil k [[p k'] [-> Hin]]%list_elem_of_fmap Hk.
    assert (p ∈ requested ctx) as Hp by (apply elem_of_requested; eauto).
    rewrite Hnil in Hp. by apply elem_of_nil in Hp.
  - intros H. destruct (requested ctx) as [|p ps] eqn:Hr; [done|].
    assert (p ∈ requested ctx) as Hp by (rewrite Hr; by left).
    apply elem_of_requested in Hp as [k [Hin Hk]].
    destruct (H k); [|done].
    apply list_elem_of_fmap. by exists (p, k).
Qed.

(** X9. The fragment of [o.borderRadius(key)] depends on the token value
    alone, not on the key or on the context: two keys render the same
    fragment exactly when they hold the same token. *)
Theorem borderRadius_by_token (theme : Theme) (k1 k2 : string) (n1 n2 : Z)
    (ctx1 ctx2 : Context) :
  theme_borderRadius theme !! k1 = Some n1 →
  theme_borderRadius theme !! k2 = Some n2 →
  operation (borderRadius (builder theme) k1) ctx1
  = operation (borderRadius (builder theme) k2) ctx2
  ↔ n1 = n2.
Proof.
  intros H1 H2. cbn. rewrite H1, H2. unfold px. cbn. split.
  - intros [= H]. by apply (inj pretty), (string_app_inj_r _ _ "px").
  - by intros ->.
Qed.

End Index.

(** ** The resolver on the sample values *)

Abbreviation sample_createTheme :=
  (createTheme sample_duration sample_dur sample_bgHoverCss).

Abbreviation sample_builder := (builder sample_bgHoverCss).

Example resolve_mixed :
  sample_createTheme
    (λ o, Arr [JsNull; Desc (hover (bg o "surface3")); JsFalse;
               Desc (borderRadius o "x"); JsUndefined])
    (Some sample_theme)
  = Ok [ [("background-color", CssString "#f5f5f5");
          ("&:hover",
           CssNested [("background-color", CssString "#f5f5f5")])];
         [("borderRadius", CssString "8px")];
         [("transition", CssString "0.2s background-color")] ].
Proof. vm_compute. reflexivity. Qed.

Example resolve_later_wins :
  sample_createTheme
    (λ _, Arr [Desc sample_colorOff; Desc sample_colorOn])
    (Some sample_theme)
  = Ok [ [("color", CssString "blue")];
         [("color", CssString "red")];
         [("transition", CssString "0.2s color")] ].
Proof. vm_compute. reflexivity. Qed.

Example resolve_three_flags :
  operation (commonSpec sample_duration sample_dur sample_theme)
    {[ "boxShadowTransition" := true; "colorTransition" := true;
       "backgroundColorTransition" := true ]}
  = [("transition",
      CssString "0.2s color, 0.2s background-color, 0.2s box-shadow")].
Proof. vm_compute. reflexivity. Qed.

Example resolve_absent_theme :
  sample_createTheme (λ o, Bare (Desc (borderRadius o "x"))) None
  = Throw noThemeProvider.
Proof. reflexivity. Qed.

Example px_absent_token :
  operation (borderRadius (sample_builder sample_theme) "y") ∅
  = [("borderRadius", CssString "undefinedpx")].
Proof. vm_compute. reflexivity. Qed.

(** ** Instances of the conditional theorems *)

Lemma context_last_write_wins_witness :
  let ctx := context sample_colorOff ∪ context sample_colorOn in
  sample_createTheme
    (λ _, Arr [Desc sample_colorOn; Desc sample_colorOff])
    (Some sample_theme)
  = Ok [operation sample_colorOn ctx; operation sample_colorOff ctx;
        transitionRule sample_duration sample_dur (requested ctx)]
  ∧ ctx !! "colorTransition" = Some false
  ∧ ("color" ∉ requested ctx)
  ∧ (requested ctx `sublist_of` ["background-color"; "box-shadow"]).
Proof.
  destruct (context_last_write_wins sample_duration sample_dur
              sample_bgHoverCss sample_theme) as (_ & H & _).
  apply (H sample_colorOn sample_colorOff); reflexivity.
Defined.

Lemma cross_declaration_coupling_witness :
  ∃ ctx,
    sample_createTheme
      (λ o, Arr ([Desc sample_colorOn]
                 ++ Desc (hover (bg o "surface3"))
                 :: [JsFalse; Desc (borderRadius o "x")])%list)
      (Some sample_theme)
    = Ok (map (λ d, operation d ctx) (descriptors [Desc sample_colorOn])
          ++ sample_bgHoverCss sample_theme "surface3"
          :: map (λ d, operation d ctx)
               (descriptors
                  [JsFalse;
                   Desc (borderRadius (sample_builder sample_theme) "x")])
          ++ [transitionRule sample_duration sample_dur (requested ctx)])%list
    ∧ ctx !! "backgroundColorTransition" = Some true
    ∧ "background-color" ∈ requested ctx.
Proof.
  destruct (cross_declaration_coupling sample_duration sample_dur
              sample_bgHoverCss sample_theme) as (_ & _ & _ & H).
  apply (H "surface3" [Desc sample_colorOn]
           [JsFalse; Desc (borderRadius (sample_builder sample_theme) "x")]).
  intros d Hd. rewrite !elem_of_cons, elem_of_nil in Hd.
  destruct Hd as [Hd|[Hd|[]]]; [discriminate|].
  injection Hd as ->. cbn. by rewrite lookup_empty.
Defined.

Example createTheme_equiv_sample :
  sample_createTheme (λ o, Bare (Desc (borderRadius o "x")))
    (Some sample_theme)
  = sample_createTheme
      (λ _, Bare (Desc (internal
                         (λ _, [("borderRadius", CssString "8px")]) None)))
      (Some sample_theme).
Proof.
  apply createTheme_equiv.
  intros t [= <-]. split; [reflexivity|]. intros ctx. reflexivity.
Qed.

Lemma borderRadius_px_witness :
  theme_borderRadius sample_theme !! "x" = Some 8%Z
  ∧ operation (borderRadius (sample_builder sample_theme) "x") ∅
    = [("borderRadius", CssString "8px")].
Proof.
  split; [reflexivity|].
  apply (borderRadius_px sample_duration sample_dur sample_bgHoverCss
           sample_theme); reflexivity.
Defined.

Lemma only_blanks_witness :
  forallb isBlank [JsNull; JsFalse; JsUndefined] = true
  ∧ sample_createTheme (λ _, Arr [JsNull; JsFalse; JsUndefined])
      (Some sample_theme)
    = Ok [[("transition", CssString "")]].
Proof.
  split; [reflexivity|].
  apply (only_blanks sample_duration sample_dur sample_bgHoverCss
           sample_theme); reflexivity.
Defined.

(** ** Properties of the text field's change handler *)

Local Open Scope list_scope.

Section TextFieldProperties.

Variable countCodePointsInString : string → nat.

Local Abbreviation handleChange' := (handleChange countCodePointsInString).
Local Abbreviation handleChanges' := (handleChanges countCodePointsInString).

Lemma handleChanges_cons (props : TextFieldProps) (value : string)
    (values : list string) (st : TextFieldState) :
  handleChanges' props (value :: values) st
  = handleChanges' props values (handleChange' props value st).
Proof. reflexivity. Qed.

Lemma handleChange_calls (props : TextFieldProps) (value : string)
    (st : TextFieldState) :
  onChange_calls (handleChange' props value st)
  = onChange_calls st
    ++ (if props_onChange props && negb (overLimit props
                                          (countCodePointsInString value))
        then [value] else []).
Proof.
  unfold handleChange.
  destruct (overLimit props _), (nonControlled props), (props_onChange props);
    cbn; by rewrite ?app_nil_r.
Qed.

(** X10. Over any sequence of inputs, the values handed to [onChange] are
    exactly the inputs that are not over the limit, in input order; without
    an [onChange] prop nothing is handed over. *)
Theorem onChange_receives_accepted (props : TextFieldProps)
    (values : list string) (st : TextFieldState) :
  onChange_calls (handleChanges' props values st)
  = onChange_calls st
    ++ (if props_onChange props
        then List.filter
               (λ v, negb (overLimit props (countCodePointsInString v)))
               values
        else []).
Proof.
  revert st. induction values as [|v values IH]; intros st.
  - cbn. by destruct (props_onChange props); rewrite app_nil_r.
  - rewrite handleChanges_cons, IH, handleChange_calls.
    rewrite <-(assoc_L (@app string)). f_equal. cbn.
    destruct (props_onChange props); [|done]. cbn.
    by destruct (overLimit props _).
Qed.

(** X11. With [maxLength] set to [m], no value longer than [m] code points
    is ever handed to [onChange]. *)
Theorem onChange_within_maxLength (props : TextFieldProps) (m : Z)
    (values : list string) (st : TextFieldState) :
  props_maxLength props = Some m →
  Forall (λ v, (Z.of_nat (countCodePointsInString v) ≤ m)%Z)
    (onChange_calls st) →
  Forall (λ v, (Z.of_nat (countCodePointsInString v) ≤ m)%Z)
    (onChange_calls (handleChanges' props values st)).
Proof.
  intros Hm. revert st. induction values as [|v values IH]; intros st Hst.
  - done.
  - rewrite handleChanges_cons. apply IH. rewrite handleChange_calls.
    apply Forall_app. split; [done|].
    unfold overLimit. rewrite Hm.
    destruct (props_onChange props); [|constructor]. cbn.
    case_bool_decide; cbn; [constructor|].
    constructor; [lia | constructor].
Qed.

(** X12. Without a [value] prop (non-controlled), the counter after a
    sequence of inputs is the code-point count of the last input that was
    not over the limit, and is left as it was when there is none. *)
Theorem count_follows_last_accepted (props : TextFieldProps)
    (values : list string) (st : TextFieldState) :
  props_value props = None →
  count (handleChanges' props values st)
  = from_option countCodePointsInString (count st)
      (last (List.filter
               (λ v, negb (overLimit props (countCodePointsInString v)))
               values)).
Proof.
  intros Hv. revert st. induction values as [|v values IH]; intros st.
  - done.
  - rewrite handleChanges_cons, IH. cbn [List.filter].
    unfold handleChange at 1, nonControlled. rewrite Hv. cbn.
    destruct (overLimit props (countCodePointsInString v)); cbn; [done|].
    destruct (List.filter _ values) as [|w ws] eqn:Hf; cbn.
    + by destruct (props_onChange props).
    + destruct (last (w :: ws)) as [u|] eqn:Hl; [done|].
      by apply last_None in Hl.
Qed.

(** X13. With a [value] prop (controlled), the handler never writes the
    counter. *)
Theorem count_untouched_when_controlled (props : TextFieldProps)
    (value : string) (values : list string) (st : TextFieldState) :
  props_value props = Some value →
  count (handleChanges' props values st) = count st.
Proof.
  intros Hv. revert st. induction values as [|v values IH]; intros st.
  - done.
  - rewrite handleChanges_cons, IH.
    unfold handleChange, nonControlled. rewrite Hv. cbn.
    by destruct (overLimit props _), (props_onChange props).
Qed.

(** X14. A negative [maxLength] rejects every input, the empty string
    included: the state never changes. *)
Theorem negative_maxLength_rejects_all (props : TextFieldProps) (m : Z)
    (values : list string) (st : TextFieldState) :
  props_maxLength props = Some m →
  (m < 0)%Z →
  handleChanges' props values st = st.
Proof.
  intros Hm Hneg. induction values as [|v values IH]; [done|].
  rewrite handleChanges_cons. unfold handleChange at 1, overLimit.
  rewrite Hm. rewrite bool_decide_eq_true_2 by lia. exact IH.
Qed.

End TextFieldProperties.

(** ** The change handler on the sample values *)

Example handleChanges_sample :
  handleChanges sample_countCodePoints sample_props_free sample_inputs
    sample_state
  = mkTextFieldState 3 ["ab"; "abc"].
Proof. reflexivity. Qed.

Example handleChanges_sample_controlled :
  handleChanges sample_countCodePoints sample_props_controlled sample_inputs
    (mkTextFieldState 2 [])
  = mkTextFieldState 2 ["ab"; "abc"].
Proof. reflexivity. Qed.

(** ** Instances of the further conditional theorems *)

Lemma blanks_are_ignored_witness :
  sample_createTheme
    (λ o, Arr [JsNull; Desc (borderRadius o "x"); JsFalse])
    (Some sample_theme)
  = sample_createTheme (λ o, Bare (Desc (borderRadius o "x")))
      (Some sample_theme).
Proof. apply blanks_are_ignored. intros o. reflexivity. Defined.

Lemma context_order_irrelevant_witness :
  ∃ ctx,
    sample_createTheme
      (λ _, Arr [Desc sample_colorOn; JsNull;
                 Desc (hover (bg (sample_builder sample_theme) "surface3"))])
      (Some sample_theme)
    = Ok (map (λ d, operation d ctx)
            [sample_colorOn;
             hover (bg (sample_builder sample_theme) "surface3")]
          ++ [transitionRule sample_duration sample_dur (requested ctx)])
    ∧ sample_createTheme
        (λ _, Arr [Desc (hover (bg (sample_builder sample_theme) "surface3"));
                   Desc sample_colorOn;
                   Desc (hover (bg (sample_builder sample_theme) "surface3"))])
        (Some sample_theme)
      = Ok (map (λ d, operation d ctx)
              [hover (bg (sample_builder sample_theme) "surface3");
               sample_colorOn;
               hover (bg (sample_builder sample_theme) "surface3")]
            ++ [transitionRule sample_duration sample_dur (requested ctx)]).
Proof.
  apply (context_order_irrelevant sample_duration sample_dur
           sample_bgHoverCss sample_theme
           [Desc sample_colorOn; JsNull;
            Desc (hover (bg (sample_builder sample_theme) "surface3"))]
           [Desc (hover (bg (sample_builder sample_theme) "surface3"));
            Desc sample_colorOn;
            Desc (hover (bg (sample_builder sample_theme) "surface3"))]).
  - intros d. rewrite !elem_of_cons, !elem_of_nil.
    split; intros H; repeat (destruct H as [H|H]); try done;
      rewrite H; auto 6.
  - intros d d' k v v' Hd Hd' Hk Hk'.
    rewrite !elem_of_cons, elem_of_nil in Hd.
    rewrite !elem_of_cons, elem_of_nil in Hd'.
    destruct Hd as [Hd|[Hd|[Hd|[]]]], Hd' as [Hd'|[Hd'|[Hd'|[]]]];
      try discriminate; injection Hd as ->; injection Hd' as ->;
      unfold sample_colorOn, internal in Hk, Hk'; cbn in Hk, Hk';
      apply lookup_singleton_Some in Hk as [<- <-];
      apply lookup_singleton_Some in Hk' as [Hkk <-];
      first [reflexivity | discriminate Hkk].
Defined.

Lemma commonSpec_reads_three_flags_witness :
  operation (commonSpec sample_duration sample_dur sample_theme)
    {[ "colorTransition" := false; "hasVerticalPadding" := true ]}
  = operation (commonSpec sample_duration sample_dur sample_theme) ∅.
Proof.
  apply commonSpec_reads_three_flags.
  intros k Hk.
  change (transitionFlags.*2)
    with ["colorTransition"; "backgroundColorTransition";
          "boxShadowTransition"] in Hk.
  rewrite !elem_of_cons, elem_of_nil in Hk.
  destruct Hk as [->|[->|[->|[]]]]; reflexivity.
Defined.

Lemma borderRadius_by_token_witness :
  operation (borderRadius (sample_builder sample_theme_radii) "x") ∅
  = operation (borderRadius (sample_builder sample_theme_radii) "y")
      {[ "colorTransition" := true ]}
  ↔ 8%Z = 8%Z.
Proof.
  apply (borderRadius_by_token sample_bgHoverCss sample_theme_radii
           "x" "y" 8 8); reflexivity.
Defined.

Lemma onChange_within_maxLength_witness :
  Forall (λ v, (Z.of_nat (sample_countCodePoints v) ≤ 3)%Z)
    (onChange_calls
       (handleChanges sample_countCodePoints sample_props_free sample_inputs
          sample_state)).
Proof.
  apply (onChange_within_maxLength sample_countCodePoints sample_props_free
           3 sample_inputs sample_state); [reflexivity | constructor].
Defined.

Lemma count_follows_last_accepted_witness :
  count (handleChanges sample_countCodePoints sample_props_free sample_inputs
           sample_state)
  = from_option sample_countCodePoints (count sample_state)
      (last (List.filter
               (λ v, negb (overLimit sample_props_free
                             (sample_countCodePoints v)))
               sample_inputs)).
Proof.
  apply (count_follows_last_accepted sample_countCodePoints
           sample_props_free sample_inputs sample_state); reflexivity.
Defined.

Lemma count_untouched_when_controlled_witness :
  count (handleChanges sample_countCodePoints sample_props_controlled
           sample_inputs (mkTextFieldState 2 []))
  = 2.
Proof.
  apply (count_untouched_when_controlled sample_countCodePoints
           sample_props_controlled "ab" sample_inputs
           (mkTextFieldState 2 [])); reflexivity.
Defined.

Lemma negative_maxLength_rejects_all_witness :
  handleChanges sample_countCodePoints sample_props_negative
    ("" :: sample_inputs) sample_state
  = sample_state.
Proof.
  apply (negative_maxLength_rejects_all sample_countCodePoints
           sample_props_negative (-1) ("" :: sample_inputs) sample_state);
    [reflexivity | lia].
Defined.
